(** * Realtime-chat: the connection manager and the websocket message relay

    A shallow embedding of [backend/app/main.py] and
    [backend/app/translate.py]: the [ConnectionManager] registry, the
    per-frame relay protocol of [websocket_endpoint], its authentication
    gate and exit paths, and the [/messages/{user_id}] history query.

    Python code that mutates shared objects and raises exceptions is written
    in a state-and-exception monad over an explicit [World]; the external
    collaborators (JWT decoding, the [auth] module, the translator, the
    websocket transport, the database clock) are the fields of a record
    [Collab] that every theorem quantifies over. *)

From stdpp Require Import base option list gmap strings.
From Stdlib Require Import ZArith Lia Sorted.

Open Scope string_scope.
Open Scope Z_scope.
Open Scope list_scope.

(** ** Data model *)

(** [models.User]. *)
Record User := mkUser {
  u_id : Z;
  u_username : string;
  u_password : string;
  u_language : string
}.

(** [models.Message]; [timestamp] is the server-side [func.now()] reading. *)
Record Message := mkMessage {
  m_id : Z;
  sender_id : Z;
  receiver_id : Z;
  original_message : string;
  translated_message : string;
  timestamp : Z
}.

(** A websocket object; two websockets are the same physical channel exactly
    when they are the same object. *)
Definition chan := nat.

(** The JSON object [websocket_endpoint] hands to [send_personal_message]. *)
Record OutFrame := mkOutFrame {
  o_id : Z;
  o_sender_id : Z;
  o_receiver_id : Z;
  o_original_message : string;
  o_translated_message : string;
  o_timestamp : Z
}.

(** A decoded inbound JSON object, as far as the handler reads it: the two
    keys it subscripts.  A key may be missing; a key that is present holds a
    value of the documented type. *)
Record InFrame := mkInFrame {
  f_receiver_id : option Z;
  f_message : option string
}.

(** Python exceptions that occur in the modelled code; every one of them is
    a subclass of [Exception]. *)
Inductive exn :=
| JWTError
| KeyError (key : string)
| TypeError
| AttributeError
| JSONDecodeError
| WebSocketDisconnect
| TransportError
| TranslatorError.

(** The calls that act on the outside, in the order they are made: what is
    done to a websocket, to the database session and to standard output.  A
    call is logged when it is made, whether or not it then raises. *)
Inductive effect :=
| Accept (c : chan)
| SendJson (c : chan) (f : OutFrame)
| Close (c : chan) (code : Z)
| DbOpen
| DbCommit (m : Message)
| DbClose
| PrintTranslationError (e : exn)
| PrintWebSocketError (e : exn).

(** The state shared by all connection tasks: [manager.active_connections],
    the two database tables in row order, and the log of external calls. *)
Record World := mkWorld {
  conns : gmap Z chan;
  users : list User;
  messages : list Message;
  trace : list effect
}.

(** The collaborators the source imports but does not define.  Each may
    depend on the whole history, so its answers can change over time. *)
Record Collab := mkCollab {
  (** [jwt.decode(token, SECRET_KEY, ...)] followed by [payload.get("sub")]:
      [None] when decoding raises, [Some None] when the payload has no
      subject, [Some (Some s)] otherwise. *)
  jwt_decode_sub : string -> option (option string);
  (** [auth.get_user(db, username=...)]. *)
  auth_get_user : list User -> string -> option User;
  (** [translator.translate(text, dest=...)] then [.text]; [None] when it
      raises. *)
  translator_translate : World -> string -> string -> option string;
  (** whether [websocket.accept()] raises *)
  accept_raises : World -> chan -> bool;
  (** whether [websocket.send_json(frame)] raises *)
  send_raises : World -> chan -> OutFrame -> bool;
  (** whether [websocket.close(code)] raises *)
  close_raises : World -> chan -> Z -> bool;
  (** the database server's [now()] *)
  db_now : World -> Z
}.

(** ** A state-and-exception monad *)

(** What running a piece of handler code gives: a value, a raised exception,
    or [Blocked] when the task is suspended in [receive_json] with nothing
    left to read. *)
Inductive Res (A : Type) :=
| Ok (a : A)
| Raise (e : exn)
| Blocked.
Arguments Ok {A} a.
Arguments Raise {A} e.
Arguments Blocked {A}.

Definition M (S A : Type) : Type := S -> Res A * S.

Definition ret {S A} (a : A) : M S A := fun s => (Ok a, s).

Definition bind {S A B} (m : M S A) (k : A -> M S B) : M S B :=
  fun s =>
    match m s with
    | (Ok a, s') => k a s'
    | (Raise e, s') => (Raise e, s')
    | (Blocked, s') => (Blocked, s')
    end.

Definition raise {S A} (e : exn) : M S A := fun s => (Raise e, s).

(** [try: m except Exception as e: h e]; a suspended task is not an
    exception. *)
Definition try_except {S A} (m : M S A) (h : exn -> M S A) : M S A :=
  fun s =>
    match m s with
    | (Raise e, s') => h e s'
    | r => r
    end.

(** [try: m finally: f]: [f] runs on return and on exception, and the
    outcome of [m] stands unless [f] itself raises. *)
Definition try_finally {S A} (m : M S A) (f : M S unit) : M S A :=
  fun s =>
    match m s with
    | (Blocked, s') => (Blocked, s')
    | (r, s') =>
        match f s' with
        | (Ok _, s'') => (r, s'')
        | (Raise e, s'') => (Raise e, s'')
        | (Blocked, s'') => (Blocked, s'')
        end
    end.

Declare Scope py_scope.
Delimit Scope py_scope with py.
Notation "'do' x <- m ; k" := (bind m (fun x => k))
  (at level 10, x name, m at level 100, k at level 200) : py_scope.
Notation "m ;;; k" := (bind m (fun _ => k))
  (at level 100, k at level 200, right associativity) : py_scope.
Open Scope py_scope.

Definition log (e : effect) (w : World) : World :=
  mkWorld (conns w) (users w) (messages w) (trace w ++ [e]).

Definition set_conns (m : gmap Z chan) (w : World) : World :=
  mkWorld m (users w) (messages w) (trace w).

Section Relay.

Variable E : Collab.

(** ** Websocket methods *)

Definition ws_accept (c : chan) : M World unit :=
  fun w =>
    if accept_raises E w c then (Raise TransportError, log (Accept c) w)
    else (Ok tt, log (Accept c) w).

Definition ws_send_json (c : chan) (f : OutFrame) : M World unit :=
  fun w =>
    if send_raises E w c f then (Raise TransportError, log (SendJson c f) w)
    else (Ok tt, log (SendJson c f) w).

Definition ws_close (c : chan) (code : Z) : M World unit :=
  fun w =>
    if close_raises E w c code then (Raise TransportError, log (Close c code) w)
    else (Ok tt, log (Close c code) w).

(** ** [class ConnectionManager] *)

(** [self.active_connections.get(user_id)]: the registry read. *)
Definition lookup_conn (user_id : Z) (w : World) : option chan :=
  conns w !! user_id.

(** [async def connect(self, websocket, user_id)] *)
Definition connect (websocket : chan) (user_id : Z) : M World unit :=
  ws_accept websocket ;;;
  fun w => (Ok tt, set_conns (<[user_id := websocket]> (conns w)) w).

(** [def disconnect(self, user_id)]: [dict.pop(user_id, None)]. *)
Definition disconnect (user_id : Z) : M World unit :=
  fun w => (Ok tt, set_conns (delete user_id (conns w)) w).

(** [async def send_personal_message(self, message, user_id)] *)
Definition send_personal_message (message : OutFrame) (user_id : Z)
  : M World unit :=
  fun w =>
    match conns w !! user_id with
    | Some websocket => ws_send_json websocket message w
    | None => (Ok tt, w)
    end.

(** ** [translate.py] *)

Definition print_translation_error (e : exn) : M World unit :=
  fun w => (Ok tt, log (PrintTranslationError e) w).

(** [await translator.translate(text, dest=target_language)] and [.text] *)
Definition call_translator (text target_language : string) : M World string :=
  fun w =>
    match translator_translate E w text target_language with
    | Some t => (Ok t, w)
    | None => (Raise TranslatorError, w)
    end.

(** [async def translate_text(text, target_language)] *)
Definition translate_text (text target_language : string) : M World string :=
  try_except
    (call_translator text target_language)
    (fun e => print_translation_error e ;;; ret text).

(** ** The database session *)

(** [SessionLocal()] and [db.close()] *)
Definition db_open : M World unit := fun w => (Ok tt, log DbOpen w).
Definition db_close : M World unit := fun w => (Ok tt, log DbClose w).

(** [db.query(models.User).filter(models.User.id == key).first()], for a
    [key] that the INTEGER column of [models.User.id] can be compared with
    (see [in_integer_range]); the source hands the JSON integer to the
    database unchecked, and what the database driver does with an integer
    it cannot bind is not part of this lookup. *)
Definition query_user_by_id (key : Z) : M World (option User) :=
  fun w => (Ok (List.find (fun u => u_id u =? key) (users w)), w).

(** The integer primary key the database gives the next row: one more than
    the largest key in the table. *)
Definition next_id (rows : list Message) : Z :=
  1 + foldr Z.max 0 (map m_id rows).

(** [db.add(message); db.commit(); db.refresh(message)]: the row gets its
    key and its server-side timestamp and is appended to the table; the
    refreshed object is returned. *)
Definition db_add_commit_refresh
    (sender receiver : Z) (original translated : string) : M World Message :=
  fun w =>
    let message :=
      mkMessage (next_id (messages w)) sender receiver original translated
                (db_now E w) in
    (Ok message,
     log (DbCommit message)
         (mkWorld (conns w) (users w) (messages w ++ [message]) (trace w))).

(** ** [get_messages]: [GET /messages/{user_id}] *)

Definition in_conversation (a b : Z) (m : Message) : bool :=
  ((sender_id m =? a) && (receiver_id m =? b))
  || ((sender_id m =? b) && (receiver_id m =? a)).

(** [current_user] is what the [auth.get_current_user] dependency resolved;
    the query has a filter and no [order_by]. *)
Definition get_messages (user_id : Z) (current_user : User) (w : World)
  : list Message :=
  List.filter (in_conversation (u_id current_user) user_id) (messages w).

(** ** [websocket_endpoint]: one iteration of the receive loop *)

(** [data["receiver_id"]] and [data["message"]] on a JSON object *)
Definition getitem_receiver_id (data : InFrame) : M World Z :=
  match f_receiver_id data with
  | Some v => ret v
  | None => raise (KeyError "receiver_id")
  end.

Definition getitem_message (data : InFrame) : M World string :=
  match f_message data with
  | Some v => ret v
  | None => raise (KeyError "message")
  end.

(** The dict literal passed to [send_personal_message]; the timestamp is
    kept as the reading that [str] renders. *)
Definition frame_of (user : User) (receiver_id : Z) (message : Message)
  : OutFrame :=
  mkOutFrame (m_id message) (u_id user) receiver_id
             (original_message message) (translated_message message)
             (timestamp message).

(** The body of [while True:] after [data] has been received. *)
Definition handle_frame (user : User) (data : InFrame) : M World unit :=
  do key <- getitem_receiver_id data;
  do receiver <- query_user_by_id key;
  match receiver with
  | Some receiver =>
      do text <- getitem_message data;
      do translated <- translate_text text (u_language receiver);
      do message <- db_add_commit_refresh (u_id user) key text translated;
      send_personal_message (frame_of user key message) key
  | None => ret tt
  end.

(** What the task meets each time it awaits [websocket.receive_json()]. *)
Inductive Inbound :=
| RecvObject (data : InFrame)
    (** a JSON object arrives *)
| RecvNotObject
    (** a JSON value that is no object arrives; subscripting it with a
        string raises [TypeError] *)
| RecvBadJson
    (** text that is not JSON arrives: [JSONDecodeError] *)
| RecvDisconnect
    (** the peer is gone: [WebSocketDisconnect] *)
| Meanwhile (other : World -> World)
    (** other connection tasks run while this one stays suspended *).

Definition handle_inbound (user : User) (i : Inbound) : M World unit :=
  match i with
  | RecvObject data => handle_frame user data
  | RecvNotObject => raise TypeError
  | RecvBadJson => raise JSONDecodeError
  | RecvDisconnect => raise WebSocketDisconnect
  | Meanwhile other => fun w => (Ok tt, other w)
  end.

(** [while True: data = await websocket.receive_json(); ...] against what
    arrives; when nothing is left the task stays suspended. *)
Fixpoint receive_loop (user : User) (script : list Inbound) : M World unit :=
  match script with
  | [] => fun w => (Blocked, w)
  | i :: rest => handle_inbound user i ;;; receive_loop user rest
  end.

(** ** [websocket_endpoint]: the whole handler *)

(** The handler's frame: the one local the [except] clause asks about
    ([None]: [user] is not in [locals()]), next to the shared world. *)
Record Task := mkTask {
  user_var : option (option User);
  world : World
}.

Definition lift {A} (m : M World A) : M Task A :=
  fun t =>
    match m (world t) with
    | (r, w') => (r, mkTask (user_var t) w')
    end.

(** [user = ...] *)
Definition assign_user (v : option User) : M Task unit :=
  fun t => (Ok tt, mkTask (Some v) (world t)).

Definition locals_user : M Task (option (option User)) :=
  fun t => (Ok (user_var t), t).

(** [jwt.decode(...)] then [payload.get("sub")] *)
Definition decode_sub (token : string) : M World (option string) :=
  match jwt_decode_sub E token with
  | Some sub => ret sub
  | None => raise JWTError
  end.

(** Python truth of [username]: neither [None] nor the empty string. *)
Definition truthy (username : option string) : bool :=
  match username with
  | Some s => negb (String.eqb s "")
  | None => false
  end.

Definition print_websocket_error (e : exn) : M World unit :=
  fun w => (Ok tt, log (PrintWebSocketError e) w).

(** The [except Exception as e:] clause. *)
Definition on_exception (e : exn) : M Task unit :=
  lift (print_websocket_error e) ;;;
  do v <- locals_user;
  match v with
  | None => ret tt
  | Some (Some user) => lift (disconnect (u_id user))
  | Some None => raise AttributeError
  end.

(** [auth.get_user(db, username=username)] *)
Definition get_user (name : string) : M World (option User) :=
  fun w => (Ok (auth_get_user E (users w) name), w).

(** [async def websocket_endpoint(websocket, token)], run against what
    arrives on the websocket. *)
Definition websocket_endpoint
    (websocket : chan) (token : string) (script : list Inbound)
  : M Task unit :=
  try_except
    (do username <- lift (decode_sub token);
     match username with
     | Some name =>
         if truthy username then
           lift db_open ;;;
           try_finally
             (do user <- lift (get_user name);
              assign_user user ;;;
              match user with
              | Some user =>
                  lift (connect websocket (u_id user)) ;;;
                  lift (receive_loop user script)
              | None => lift (ws_close websocket 1008)
              end)
             (lift db_close)
         else lift (ws_close websocket 1008)
     | None => lift (ws_close websocket 1008)
     end)
    on_exception.

(** A connection attempt started in world [w]. *)
Definition serve (websocket : chan) (token : string) (script : list Inbound)
    (w : World) : Res unit * World :=
  match websocket_endpoint websocket token script (mkTask None w) with
  | (r, t) => (r, world t)
  end.

End Relay.

(** ** The stages of one valid frame

    For a frame carrying [key] and [text] whose receiver resolved to
    [receiver], the values and worlds [handle_frame] goes through. *)

Section FrameStages.

Variable E : Collab.
Variables (user receiver : User) (key : Z) (text : string) (w : World).

(** What [translate_text] returns for this frame. *)
Definition translated_for : string :=
  match translator_translate E w text (u_language receiver) with
  | Some t => t
  | None => text
  end.

(** The world after [translate_text]: a failure is printed. *)
Definition after_translate : World :=
  match translator_translate E w text (u_language receiver) with
  | Some _ => w
  | None => log (PrintTranslationError TranslatorError) w
  end.

(** The row this frame creates. *)
Definition row_for : Message :=
  mkMessage (next_id (messages w)) (u_id user) key text translated_for
            (db_now E after_translate).

(** The world after [db.refresh(message)]. *)
Definition after_commit : World :=
  log (DbCommit row_for)
      (mkWorld (conns w) (users w) (messages w ++ [row_for])
               (trace after_translate)).

End FrameStages.

(** The integers an INTEGER column and a parameter bound to it can hold:
    signed 64-bit. *)
Definition in_integer_range (key : Z) : Prop :=
  - 2 ^ 63 <= key < 2 ^ 63.

(** ** Observations on a trace *)

Definition is_close_of (c : chan) (e : effect) : bool :=
  match e with
  | Close c' _ => Nat.eqb c' c
  | _ => false
  end.

(** How many times [websocket.close] was called on [c]. *)
Definition close_count (c : chan) (t : list effect) : nat :=
  length (List.filter (is_close_of c) t).

Definition is_send (e : effect) : bool :=
  match e with
  | SendJson _ _ => true
  | _ => false
  end.

(** How many outbound frames were pushed. *)
Definition send_count (t : list effect) : nat :=
  length (List.filter is_send t).

(** Rows in non-decreasing [timestamp] order. *)
Fixpoint ordered_by_timestamp (rows : list Message) : bool :=
  match rows with
  | a :: (b :: _) as rest =>
      (timestamp a <=? timestamp b) && ordered_by_timestamp rest
  | _ => true
  end.

(** The registry operation as section 4.1 of the specification words it:
    drop the mapping of [user_id] only when the registered channel is the
    very channel being unregistered.  The source has no such function; this
    one exists to be compared with [disconnect]. *)
Definition unregister_spec (user_id : Z) (c : chan) (w : World) : World :=
  match conns w !! user_id with
  | Some c' => if Nat.eqb c' c then set_conns (delete user_id (conns w)) w else w
  | None => w
  end.

(** Inbound events that end the connection whatever the state: a peer
    disconnect, or a malformed frame (not JSON, not an object, or an object
    without the [receiver_id] key). *)
Definition ends_connection (i : Inbound) : bool :=
  match i with
  | RecvObject data =>
      match f_receiver_id data with
      | Some _ => false
      | None => true
      end
  | RecvNotObject | RecvBadJson | RecvDisconnect => true
  | Meanwhile _ => false
  end.

(** The world in which the receive loop starts: the session is open, the
    websocket accepted and registered. *)
Definition active_world (websocket : chan) (user : User) (w : World) : World :=
  set_conns (<[u_id user := websocket]> (conns w))
            (log (Accept websocket) (log DbOpen w)).

(** ** A small concrete deployment, used to run the model *)

Definition alice : User := mkUser 1 "alice" "x" "en".
Definition bob : User := mkUser 2 "bob" "y" "es".

Definition demo_decode (token : string) : option (option string) :=
  if String.eqb token "tok-alice" then Some (Some "alice")
  else if String.eqb token "tok-bob" then Some (Some "bob")
  else if String.eqb token "tok-ghost" then Some (Some "ghost")
  else if String.eqb token "tok-nosub" then Some None
  else None.

Definition demo_get_user (table : list User) (name : string) : option User :=
  List.find (fun u => String.eqb (u_username u) name) table.

(** Every transport call succeeds, the translator prefixes the language
    code, the clock counts the calls made so far. *)
Definition demo : Collab :=
  mkCollab demo_decode demo_get_user
           (fun _ text lang => Some (String.append lang (String.append ":" text)))
           (fun _ _ => false) (fun _ _ _ => false) (fun _ _ _ => false)
           (fun w => Z.of_nat (length (trace w))).

(** As [demo], with every push failing. *)
Definition demo_push_fails : Collab :=
  mkCollab demo_decode demo_get_user
           (translator_translate demo)
           (fun _ _ => false) (fun _ _ _ => true) (fun _ _ _ => false)
           (db_now demo).

(** As [demo], with a translator that always raises. *)
Definition demo_no_translator : Collab :=
  mkCollab demo_decode demo_get_user
           (fun _ _ _ => None)
           (fun _ _ => false) (fun _ _ _ => false) (fun _ _ _ => false)
           (db_now demo).

(** As [demo], with a database clock that is stepped between commits: the
    first three rows get the readings 5, 9 and 7. *)
Definition demo_clock_stepped : Collab :=
  mkCollab demo_decode demo_get_user
           (translator_translate demo)
           (fun _ _ => false) (fun _ _ _ => false) (fun _ _ _ => false)
           (fun w => nth (length (messages w)) [5; 9; 7] 0).

Definition world0 : World := mkWorld ∅ [alice; bob] [] [].

Definition hello : InFrame := mkInFrame (Some 2) (Some "hello").

Definition sample_frame : OutFrame := mkOutFrame 1 1 2 "hello" "es:hello" 0.

(** Bob connects on channel 9 while another task is suspended. *)
Definition bob_logs_in : Inbound :=
  Meanwhile (fun w => snd (connect demo 9%nat 2 w)).

(** A second connection of user 1, on channel 8, registers while the first
    one is suspended in [receive_json]. *)
Definition second_login : Inbound :=
  Meanwhile (fun w => snd (connect demo 8%nat 1 w)).

Definition by_timestamp (a b : Message) : Prop := timestamp a <= timestamp b.

(** ** The HTTP endpoints of [main.py]

    These handlers work on the user table alone, so they are written over
    the table; the [get_db] dependency that brackets them is left out. *)

(** [schemas.User], the [response_model] of the user endpoints: the fields
    [username], [language] and [id], and no password. *)
Record SchemaUser := mkSchemaUser {
  s_username : string;
  s_language : string;
  s_id : Z
}.

(** [schemas.UserCreate] *)
Record UserCreate := mkUserCreate {
  c_username : string;
  c_language : string;
  c_password : string
}.

(** [schemas.Token] *)
Record Token := mkToken {
  access_token : string;
  token_type : string
}.

(** What an HTTP handler gives: its return value, an [HTTPException], or
    the [IntegrityError] of a commit that breaks [unique=True]. *)
Inductive HttpRes (A : Type) :=
| HttpOk (a : A)
| HTTPException (status_code : Z) (detail : string)
| IntegrityError.
Arguments HttpOk {A} a.
Arguments HTTPException {A} status_code detail.
Arguments IntegrityError {A}.

(** Serialising a [models.User] through [response_model=schemas.User]. *)
Definition to_schema_user (u : User) : SchemaUser :=
  mkSchemaUser (u_username u) (u_language u) (u_id u).

(** [read_users_me]: [GET /users/me] *)
Definition read_users_me (current_user : User) : SchemaUser :=
  to_schema_user current_user.

(** [get_users]: [GET /users], that is
    [db.query(models.User).offset(skip).limit(limit).all()].  [skip] and
    [limit] are taken non-negative; what a negative value does is up to the
    database. *)
Definition get_users (table : list User) (current_user : User)
    (skip limit : nat) : list SchemaUser :=
  map to_schema_user (take limit (drop skip table)).

(** The integer primary key the database gives the next user row. *)
Definition next_user_id (table : list User) : Z :=
  1 + foldr Z.max 0 (map u_id table).

Definition username_taken (name : string) (table : list User) : bool :=
  existsb (fun u => String.eqb (u_username u) name) table.

Section Http.

Variable E : Collab.

(** The parts of the [auth] module these endpoints call. *)
Variable get_password_hash : string -> string.
Variable authenticate_user : list User -> string -> string -> option User.
Variable create_access_token : string -> Z -> string.
Variable ACCESS_TOKEN_EXPIRE_MINUTES : Z.

(** [register_user]: [POST /register].  The commit of a row whose username
    is already in the table violates the [unique=True] of
    [models.User.username]. *)
Definition register_user (user : UserCreate) (table : list User)
  : HttpRes SchemaUser * list User :=
  match auth_get_user E table (c_username user) with
  | Some _ => (HTTPException 400 "Username already registered", table)
  | None =>
      let db_user :=
        mkUser (next_user_id table) (c_username user)
               (get_password_hash (c_password user)) (c_language user) in
      if username_taken (c_username user) table then (IntegrityError, table)
      else (HttpOk (to_schema_user db_user), table ++ [db_user])
  end.

(** [login_for_access_token]: [POST /token] *)
Definition login_for_access_token (form_username form_password : string)
    (table : list User) : HttpRes Token :=
  match authenticate_user table form_username form_password with
  | None => HTTPException 401 "Incorrect username or password"
  | Some user =>
      HttpOk (mkToken (create_access_token (u_username user)
                                           ACCESS_TOKEN_EXPIRE_MINUTES)
                      "bearer")
  end.

End Http.

(** ** Further observations on scripts and traces *)

Definition is_meanwhile (i : Inbound) : bool :=
  match i with
  | Meanwhile _ => true
  | _ => false
  end.

(** A script in which only this connection's own peer acts: no other task
    touches the world while the handler is suspended. *)
Definition undisturbed (script : list Inbound) : bool :=
  forallb (fun i => negb (is_meanwhile i)) script.

Definition is_db_open (e : effect) : bool :=
  match e with
  | DbOpen => true
  | _ => false
  end.

Definition is_db_close (e : effect) : bool :=
  match e with
  | DbClose => true
  | _ => false
  end.

Definition count_effects (p : effect -> bool) (t : list effect) : nat :=
  length (List.filter p t).

(** What the receive loop of [user] may do to the outside while the registry
    is [registry]: commit a row whose sender is [user], push a frame from
    [user] on the channel registered for the frame's receiver, print a
    translation error.  Everything else is excluded: accepting or closing a
    websocket, opening or closing the session, the handler's own error
    print. *)
Definition loop_effect (user : User) (registry : gmap Z chan) (e : effect)
  : Prop :=
  match e with
  | DbCommit m => sender_id m = u_id user
  | SendJson c f =>
      registry !! o_receiver_id f = Some c /\ o_sender_id f = u_id user
  | PrintTranslationError _ => True
  | _ => False
  end.

(** As [demo], with every [accept] failing. *)
Definition demo_accept_fails : Collab :=
  mkCollab demo_decode demo_get_user
           (translator_translate demo)
           (fun _ _ => true) (fun _ _ _ => false) (fun _ _ _ => false)
           (db_now demo).

(** As [demo], with every [close] failing. *)
Definition demo_close_fails : Collab :=
  mkCollab demo_decode demo_get_user
           (translator_translate demo)
           (fun _ _ => false) (fun _ _ _ => false) (fun _ _ _ => true)
           (db_now demo).

(** Stand-ins for the [auth] functions of the HTTP endpoints. *)
Definition demo_hash (password : string) : string :=
  String.append "hashed:" password.

Definition demo_authenticate (table : list User) (name password : string)
  : option User :=
  match demo_get_user table name with
  | Some u => if String.eqb (u_password u) (demo_hash password) then Some u
              else None
  | None => None
  end.

Definition demo_create_token (sub : string) (minutes : Z) : string :=
  String.append "tok-" sub.

Definition carol : UserCreate := mkUserCreate "carol" "fr" "secret".


(** A message table in timestamp order that holds rows of three
    conversations: alice and bob in both directions, bob to user 3, and
    user 3 to alice. *)
Definition busy_table : list Message :=
  [ mkMessage 1 1 2 "hi" "es:hi" 10;
    mkMessage 2 2 3 "ca va" "fr:ca va" 20;
    mkMessage 3 2 1 "hola" "en:hola" 30;
    mkMessage 4 3 1 "salut" "en:salut" 40;
    mkMessage 5 1 2 "bye" "es:bye" 50 ].

Definition world_busy : World := mkWorld ∅ [alice; bob] busy_table [].

(** ** Running the monad *)

Ltac run :=
  unfold serve, websocket_endpoint, on_exception, handle_inbound,
    handle_frame, send_personal_message, connect, disconnect,
    translate_text, call_translator, print_translation_error,
    print_websocket_error, db_add_commit_refresh, query_user_by_id,
    getitem_receiver_id, getitem_message, decode_sub, get_user, db_open,
    db_close,
    ws_accept, ws_send_json, ws_close, assign_user, locals_user, lift,
    try_except, try_finally, bind, ret, raise, lookup_conn in *;
  simpl in *.

Ltac session_case :=
  simpl; eexists; split; [rewrite <- ?app_assoc; reflexivity |];
  cbn; repeat split; intros; try done; try lia.

Lemma world_eta (w : World) :
  mkWorld (conns w) (users w) (messages w) (trace w) = w.
Proof. by destruct w. Qed.

Lemma connect_run (E : Collab) (c : chan) (u : Z) (w : World) :
  connect E c u w =
  if accept_raises E w c then (Raise TransportError, log (Accept c) w)
  else (Ok tt, set_conns (<[u := c]> (conns w)) (log (Accept c) w)).
Proof. run. by destruct (accept_raises E w c). Qed.

Lemma connect_ok (E : Collab) (c : chan) (u : Z) (w w' : World) :
  connect E c u w = (Ok tt, w') ->
  accept_raises E w c = false /\
  w' = set_conns (<[u := c]> (conns w)) (log (Accept c) w).
Proof.
  rewrite connect_run. destruct (accept_raises E w c); intros H.
  - discriminate H.
  - by inversion H.
Qed.

Lemma connect_twice_ok (E : Collab) (c1 c2 : chan) (u : Z) (w w' : World) :
  (connect E c1 u ;;; connect E c2 u) w = (Ok tt, w') ->
  exists w1,
    connect E c1 u w = (Ok tt, w1) /\ connect E c2 u w1 = (Ok tt, w').
Proof.
  unfold bind at 1. destruct (connect E c1 u w) as [[[]|e|] w1] eqn:H1;
    intros H; try discriminate H.
  by exists w1.
Qed.

Lemma close_count_app (c : chan) (t1 t2 : list effect) :
  close_count c (t1 ++ t2) = (close_count c t1 + close_count c t2)%nat.
Proof. unfold close_count. by rewrite List.filter_app, length_app. Qed.

(** ** The registry: [connect], [disconnect], [send_personal_message] *)

(** C1, as the program has it: when [connect(c1, u)] and then
    [connect(c2, u)] have both returned, the registry maps [u] to [c2]; the
    only calls made on the two websockets are their [accept]s, so the
    superseded channel [c1] is not closed by the registry: its number of
    [close] calls is what it was before. *)
Theorem C1_connect_twice_supersedes
    (E : Collab) (c1 c2 : chan) (u : Z) (w w' : World) :
  (connect E c1 u ;;; connect E c2 u) w = (Ok tt, w') ->
  lookup_conn u w' = Some c2 /\
  trace w' = trace w ++ [Accept c1; Accept c2] /\
  close_count c1 (trace w') = close_count c1 (trace w).
Proof.
  intros H. apply connect_twice_ok in H as (w1 & H1 & H2).
  apply connect_ok in H1 as [_ ->]. apply connect_ok in H2 as [_ ->].
  unfold lookup_conn. simpl. split; [apply lookup_insert_eq |].
  rewrite <- app_assoc. simpl. split; [done |].
  rewrite close_count_app. unfold close_count at 2. simpl. lia.
Qed.

Lemma C1_connect_twice_supersedes_witness :
  fst ((connect demo 7%nat 1 ;;; connect demo 8%nat 1) world0) = Ok tt /\
  lookup_conn 1 (snd ((connect demo 7%nat 1 ;;; connect demo 8%nat 1) world0))
  = Some 8%nat.
Proof.
  split; [reflexivity |].
  apply (C1_connect_twice_supersedes demo 7%nat 8%nat 1 world0).
  reflexivity.
Defined.

(** C1 as the specification states it fails: after two registrations of
    user 1, first on channel 7 and then on channel 8, both of which return,
    channel 7 has been closed zero times, not once. *)
Lemma C1_superseded_channel_never_closed :
  fst ((connect demo 7%nat 1 ;;; connect demo 8%nat 1) world0) = Ok tt /\
  lookup_conn 1 (snd ((connect demo 7%nat 1 ;;; connect demo 8%nat 1) world0))
  = Some 8%nat /\
  close_count 7%nat
    (trace (snd ((connect demo 7%nat 1 ;;; connect demo 8%nat 1) world0)))
  = 0%nat /\
  close_count 7%nat
    (trace (snd ((connect demo 7%nat 1 ;;; connect demo 8%nat 1) world0)))
  <> 1%nat.
Proof. vm_compute. repeat split; discriminate. Qed.

Lemma disconnect_run (u : Z) (w : World) :
  disconnect u w = (Ok tt, set_conns (delete u (conns w)) w).
Proof. reflexivity. Qed.

(** C2, as the program has it: [disconnect] takes the user id alone.  In
    every state [disconnect(u)] returns, leaves [u] without a mapping
    whichever channel was registered for it, changes no other user's mapping
    and makes no external call.  In particular, once [connect(c1, u)] and
    [connect(c2, u)] have returned, [lookup(u)] is [c2], and after the
    [disconnect(u)] that the connection of [c1] issues [lookup(u)] is
    absent. *)
Theorem C2_disconnect_ignores_channel
    (E : Collab) (c1 c2 : chan) (u : Z) (w : World) :
  (exists w3,
     disconnect u w = (Ok tt, w3) /\
     lookup_conn u w3 = None /\
     (forall v, v <> u -> lookup_conn v w3 = lookup_conn v w) /\
     trace w3 = trace w) /\
  (forall w2,
     (connect E c1 u ;;; connect E c2 u) w = (Ok tt, w2) ->
     lookup_conn u w2 = Some c2 /\
     lookup_conn u (snd (disconnect u w2)) = None).
Proof.
  split.
  - eexists. split; [apply disconnect_run |].
    unfold lookup_conn. simpl. split; [apply lookup_delete_eq |].
    split; [| done].
    intros v Hv. by rewrite lookup_delete_ne.
  - intros w2 H. apply connect_twice_ok in H as (w1 & H1 & H2).
    apply connect_ok in H1 as [_ ->]. apply connect_ok in H2 as [_ ->].
    unfold lookup_conn. simpl.
    split; [apply lookup_insert_eq | apply lookup_delete_eq].
Qed.

Lemma C2_disconnect_ignores_channel_witness :
  fst ((connect demo 7%nat 1 ;;; connect demo 8%nat 1) world0) = Ok tt /\
  lookup_conn 1
    (snd (disconnect 1
            (snd ((connect demo 7%nat 1 ;;; connect demo 8%nat 1) world0))))
  = None.
Proof.
  split; [reflexivity |].
  apply (proj2 (C2_disconnect_ignores_channel demo 7%nat 8%nat 1 world0)
           (snd ((connect demo 7%nat 1 ;;; connect demo 8%nat 1) world0))).
  reflexivity.
Defined.

(** C2 as the specification states it fails: user 1 registers channel 7 and
    then channel 8; the stale [disconnect(1)] issued for channel 7 evicts
    channel 8, where the specified [unregister(1, 7)] leaves it in place. *)
Lemma C2_stale_disconnect_evicts_newer :
  lookup_conn 1 (snd ((connect demo 7%nat 1 ;;; connect demo 8%nat 1) world0))
  = Some 8%nat /\
  lookup_conn 1
    (snd ((connect demo 7%nat 1 ;;; connect demo 8%nat 1 ;;; disconnect 1)
            world0))
  = None /\
  lookup_conn 1
    (unregister_spec 1 7%nat
       (snd ((connect demo 7%nat 1 ;;; connect demo 8%nat 1) world0)))
  = Some 8%nat.
Proof. vm_compute. repeat split. Qed.

(** C3, as the program has it: [send_personal_message(f, u)] has no return
    value to tell whether a channel was found.  Without a channel for [u] it
    returns and does nothing at all.  With a channel it pushes [f] on it
    once; when the push raises, the exception goes to the caller; in either
    case the registry is left as it was. *)
Theorem C3_send_personal_message_behaviour
    (E : Collab) (f : OutFrame) (u : Z) (w : World) :
  match lookup_conn u w with
  | None => send_personal_message E f u w = (Ok tt, w)
  | Some c =>
      send_personal_message E f u w =
      (if send_raises E w c f then Raise TransportError else Ok tt,
       log (SendJson c f) w) /\
      conns (snd (send_personal_message E f u w)) = conns w
  end.
Proof.
  unfold lookup_conn, send_personal_message, ws_send_json.
  destruct (conns w !! u) as [c|]; [| done].
  by destruct (send_raises E w c f).
Qed.

(** C3 as the specification states it fails: with channel 9 registered for
    user 2 and a push that fails, the call raises to its caller and user 2
    is still registered on channel 9 afterwards. *)
Lemma C3_failed_push_raises_and_keeps_channel :
  fst (send_personal_message demo_push_fails sample_frame 2
         (set_conns {[2 := 9%nat]} world0))
  = Raise TransportError /\
  lookup_conn 2
    (snd (send_personal_message demo_push_fails sample_frame 2
            (set_conns {[2 := 9%nat]} world0)))
  = Some 9%nat.
Proof. vm_compute. split; reflexivity. Qed.

(** C10: [disconnect(u)] returns normally in every registry state; when [u]
    has no registered channel the world, and with it the mapping, is left
    unchanged; and two calls in a row give the same outcome and state as
    one. *)
Theorem C10_disconnect_total_idempotent (u : Z) (w : World) :
  (exists w', disconnect u w = (Ok tt, w')) /\
  (lookup_conn u w = None -> disconnect u w = (Ok tt, w)) /\
  (disconnect u ;;; disconnect u) w = disconnect u w.
Proof.
  split; [by eexists |]. split.
  - unfold lookup_conn. intros H. rewrite disconnect_run. unfold set_conns.
    rewrite delete_id by done. by rewrite world_eta.
  - unfold bind. rewrite !disconnect_run. unfold set_conns. simpl.
    by rewrite delete_delete_eq.
Qed.

Lemma C10_disconnect_total_idempotent_witness :
  lookup_conn 5 world0 = None /\ disconnect 5 world0 = (Ok tt, world0).
Proof.
  split; [reflexivity |].
  apply (proj1 (proj2 (C10_disconnect_total_idempotent 5 world0))).
  reflexivity.
Defined.

(** ** One inbound frame: [handle_frame] *)

Lemma handle_frame_valid
    (E : Collab) (user receiver : User) (data : InFrame) (key : Z)
    (text : string) (w : World) :
  f_receiver_id data = Some key ->
  f_message data = Some text ->
  List.find (fun u => u_id u =? key) (users w) = Some receiver ->
  handle_frame E user data w =
  send_personal_message E
    (frame_of user key (row_for E user receiver key text w)) key
    (after_commit E user receiver key text w).
Proof.
  intros Hkey Htext Hreceiver.
  unfold handle_frame, getitem_receiver_id, getitem_message, query_user_by_id.
  rewrite Hkey, Htext. unfold bind at 1. unfold ret at 1.
  unfold bind at 1. rewrite Hreceiver.
  unfold bind at 1. unfold ret at 1.
  unfold after_commit, row_for, translated_for, after_translate.
  unfold bind at 1, translate_text, try_except, call_translator.
  destruct (translator_translate E w text (u_language receiver)); reflexivity.
Qed.

Lemma after_commit_conns
    (E : Collab) (user receiver : User) (key : Z) (text : string) (w : World) :
  conns (after_commit E user receiver key text w) = conns w.
Proof. reflexivity. Qed.

Lemma send_messages (E : Collab) (f : OutFrame) (u : Z) (w : World) :
  messages (snd (send_personal_message E f u w)) = messages w.
Proof.
  unfold send_personal_message, ws_send_json.
  destruct (conns w !! u) as [c|]; [| done].
  by destruct (send_raises E w c f).
Qed.

Lemma send_not_blocked (E : Collab) (f : OutFrame) (u : Z) (w : World) :
  fst (send_personal_message E f u w) <> Blocked.
Proof.
  unfold send_personal_message, ws_send_json.
  destruct (conns w !! u) as [c|]; [| done].
  by destruct (send_raises E w c f).
Qed.

Lemma send_trace (E : Collab) (f : OutFrame) (u : Z) (w : World) :
  trace (snd (send_personal_message E f u w)) =
  trace w ++ match conns w !! u with
             | Some c => [SendJson c f]
             | None => []
             end.
Proof.
  unfold send_personal_message, ws_send_json.
  destruct (conns w !! u) as [c|]; [| by rewrite app_nil_r].
  by destruct (send_raises E w c f).
Qed.

Lemma in_conversation_sym (a b : Z) (m : Message) :
  in_conversation a b m = in_conversation b a m.
Proof. unfold in_conversation. apply orb_comm. Qed.

Lemma in_conversation_row (a b : Z) (m : Message) :
  sender_id m = a -> receiver_id m = b -> in_conversation a b m = true.
Proof.
  intros <- <-. unfold in_conversation. by rewrite !Z.eqb_refl.
Qed.

(** The scenario of the specification: alice ("en") and bob ("es") are both
    connected and alice sends bob "hello"; one row is stored and bob's
    channel is pushed the frame with the same fields. *)
Example both_online_delivers :
  serve demo 7%nat "tok-alice" [bob_logs_in; RecvObject hello] world0 =
  (Blocked,
   mkWorld {[1 := 7%nat; 2 := 9%nat]} [alice; bob]
           [mkMessage 1 1 2 "hello" "es:hello" 3]
           [DbOpen; Accept 7%nat; Accept 9%nat;
            DbCommit (mkMessage 1 1 2 "hello" "es:hello" 3);
            SendJson 9%nat (mkOutFrame 1 1 2 "hello" "es:hello" 3)]).
Proof. vm_compute. reflexivity. Qed.

(** C4: for a well-formed frame whose receiver id resolves to a user of the
    store, handling it appends exactly one row to the message table, from
    the sender to that receiver with the original text, whose translated
    text is the translator's output for the text and the receiver's
    language, or the original text when the translator raises; in both cases
    the handler goes on (it is not left suspended) and the row is there. *)
Theorem C4_one_message_persisted
    (E : Collab) (user receiver : User) (data : InFrame) (key : Z)
    (text : string) (w : World) :
  f_receiver_id data = Some key ->
  f_message data = Some text ->
  List.find (fun u => u_id u =? key) (users w) = Some receiver ->
  fst (handle_frame E user data w) <> Blocked /\
  exists m,
    messages (snd (handle_frame E user data w)) = messages w ++ [m] /\
    sender_id m = u_id user /\
    receiver_id m = key /\
    original_message m = text /\
    translated_message m =
      match translator_translate E w text (u_language receiver) with
      | Some t => t
      | None => text
      end.
Proof.
  intros Hk Ht Hr. rewrite (handle_frame_valid E user receiver data key text w Hk Ht Hr).
  split; [apply send_not_blocked |].
  exists (row_for E user receiver key text w).
  rewrite send_messages. by repeat split.
Qed.

Lemma C4_one_message_persisted_witness :
  List.find (fun u => u_id u =? 2) (users world0) = Some bob /\
  (exists m,
     messages (snd (handle_frame demo_no_translator alice hello world0))
     = messages world0 ++ [m] /\
     sender_id m = 1 /\ receiver_id m = 2 /\
     original_message m = "hello" /\ translated_message m = "hello").
Proof.
  split; [reflexivity |].
  apply (C4_one_message_persisted demo_no_translator alice bob hello 2 "hello"
           world0); reflexivity.
Defined.

(** C6: a frame whose receiver id is an integer the store can look up (one
    in the range of its INTEGER keys) and matches no user of the store is
    dropped: handling it returns normally and leaves the world as it was, so
    no row is persisted, no frame is pushed to anyone and nothing is raised
    to or sent to the sender. *)
Theorem C6_unknown_receiver_dropped
    (E : Collab) (user : User) (data : InFrame) (key : Z) (w : World) :
  f_receiver_id data = Some key ->
  in_integer_range key ->
  List.find (fun u => u_id u =? key) (users w) = None ->
  handle_frame E user data w = (Ok tt, w).
Proof.
  intros Hk _ Hr.
  unfold handle_frame, getitem_receiver_id, query_user_by_id.
  rewrite Hk. unfold bind, ret. by rewrite Hr.
Qed.

Lemma C6_unknown_receiver_dropped_witness :
  in_integer_range 99 /\
  List.find (fun u => u_id u =? 99) (users world0) = None /\
  handle_frame demo alice (mkInFrame (Some 99) (Some "hello")) world0
  = (Ok tt, world0).
Proof.
  assert (Hrange : in_integer_range 99) by (unfold in_integer_range; lia).
  split; [exact Hrange |]. split; [reflexivity |].
  apply (C6_unknown_receiver_dropped demo alice _ 99 world0);
    [reflexivity | exact Hrange | reflexivity].
Defined.

Lemma after_commit_trace
    (E : Collab) (user receiver : User) (key : Z) (text : string) (w : World) :
  exists pre,
    send_count pre = 0%nat /\
    trace (after_commit E user receiver key text w) =
    trace w ++ pre ++ [DbCommit (row_for E user receiver key text w)].
Proof.
  unfold after_commit, after_translate. simpl.
  destruct (translator_translate E w text (u_language receiver)).
  - exists []. by split.
  - exists [PrintTranslationError TranslatorError]. split; [done |].
    simpl. by rewrite <- app_assoc.
Qed.

Lemma send_count_app (t1 t2 : list effect) :
  send_count (t1 ++ t2) = (send_count t1 + send_count t2)%nat.
Proof. unfold send_count. by rewrite List.filter_app, length_app. Qed.

(** C5: for a well-formed frame with a resolvable receiver the row is
    committed before the push is attempted (every call logged ahead of the
    commit is no push, and the push, if any, comes right after it), and the
    row is in the table whatever the push does.  When the receiver has no
    registered channel, handling returns normally, no frame is pushed, and
    in every later state that still holds the row the history query
    returns it, to the sender asking about the receiver and to the receiver
    asking about the sender. *)
Theorem C5_persisted_before_and_without_delivery
    (E : Collab) (user receiver : User) (data : InFrame) (key : Z)
    (text : string) (w : World) :
  f_receiver_id data = Some key ->
  f_message data = Some text ->
  List.find (fun u => u_id u =? key) (users w) = Some receiver ->
  exists m pre,
    messages (snd (handle_frame E user data w)) = messages w ++ [m] /\
    send_count pre = 0%nat /\
    trace (snd (handle_frame E user data w)) =
      trace w ++ pre ++ DbCommit m ::
        match lookup_conn key w with
        | Some c => [SendJson c (frame_of user key m)]
        | None => []
        end /\
    (lookup_conn key w = None ->
     fst (handle_frame E user data w) = Ok tt /\
     send_count (trace (snd (handle_frame E user data w)))
       = send_count (trace w) /\
     forall later : World,
       In m (messages later) ->
       In m (get_messages key user later) /\
       In m (get_messages (u_id user) receiver later)).
Proof.
  intros Hk Ht Hr.
  rewrite (handle_frame_valid E user receiver data key text w Hk Ht Hr).
  destruct (after_commit_trace E user receiver key text w) as (pre & Hpre & Htr).
  exists (row_for E user receiver key text w), pre.
  rewrite send_messages, send_trace, Htr. unfold lookup_conn.
  rewrite after_commit_conns.
  split; [done |]. split; [done |]. split.
  { by rewrite <- !app_assoc. }
  intros Hnone. unfold send_personal_message.
  rewrite after_commit_conns, Hnone.
  split; [done |]. split.
  { rewrite app_nil_r, !send_count_app, Hpre.
    change (send_count [DbCommit (row_for E user receiver key text w)])
      with 0%nat.
    lia. }
  intros later Hin. unfold get_messages.
  apply List.find_some in Hr as [_ Hid]. apply Z.eqb_eq in Hid.
  split; apply List.filter_In; (split; [done |]).
  - by apply in_conversation_row.
  - rewrite in_conversation_sym. apply in_conversation_row; [done |].
    by rewrite Hid.
Qed.

Lemma C5_persisted_before_and_without_delivery_witness :
  lookup_conn 2 world0 = None /\
  exists m,
    messages (snd (handle_frame demo alice hello world0)) = [m] /\
    fst (handle_frame demo alice hello world0) = Ok tt /\
    In m (get_messages 2 alice (snd (handle_frame demo alice hello world0))) /\
    In m (get_messages 1 bob (snd (handle_frame demo alice hello world0))).
Proof.
  split; [reflexivity |].
  destruct (C5_persisted_before_and_without_delivery demo alice bob hello 2
              "hello" world0 eq_refl eq_refl eq_refl)
    as (m & pre & Hm & _ & _ & Hoff).
  destruct (Hoff eq_refl) as (Hok & _ & Hq).
  exists m. split; [exact Hm |]. split; [exact Hok |].
  apply Hq. rewrite Hm. simpl. by left.
Defined.

(** ** The authentication gate of [websocket_endpoint] *)

Lemma truthy_name (name : string) : name <> "" -> truthy (Some name) = true.
Proof.
  intros H. unfold truthy. destruct (String.eqb_spec name ""); [done | reflexivity].
Qed.

(** The two sibling exits of the gate do call [close(code=1008)], and
    register nothing. *)
Lemma serve_no_subject
    (E : Collab) (c : chan) (token : string) (sub : option string)
    (script : list Inbound) (w : World) :
  jwt_decode_sub E token = Some sub ->
  truthy sub = false ->
  fst (serve E c token script w) = Ok tt /\
  conns (snd (serve E c token script w)) = conns w /\
  exists rest, trace (snd (serve E c token script w))
               = trace w ++ Close c 1008 :: rest.
Proof.
  intros Hd Ht. run. rewrite Hd. simpl.
  destruct sub as [name|]; simpl in *.
  - rewrite Ht. simpl.
    destruct (close_raises E w c 1008); simpl; repeat split;
      eexists; rewrite <- ?app_assoc; reflexivity.
  - destruct (close_raises E w c 1008); simpl; repeat split;
      eexists; rewrite <- ?app_assoc; reflexivity.
Qed.

Lemma serve_unknown_user
    (E : Collab) (c : chan) (token name : string)
    (script : list Inbound) (w : World) :
  jwt_decode_sub E token = Some (Some name) ->
  name <> "" ->
  auth_get_user E (users w) name = None ->
  conns (snd (serve E c token script w)) = conns w /\
  exists rest, trace (snd (serve E c token script w))
               = trace w ++ DbOpen :: Close c 1008 :: DbClose :: rest.
Proof.
  intros Hd Hn Hu. apply truthy_name in Hn. run. rewrite Hd. simpl.
  unfold truthy in Hn. rewrite Hn. simpl. rewrite Hu. simpl.
  destruct (close_raises E _ c 1008); simpl; split; try done;
    eexists; rewrite <- ?app_assoc; reflexivity.
Qed.

(** C7, the failing case evaluated: for a token that [jwt.decode] rejects,
    the handler prints the error and returns; it registers no session, and
    it makes no [close] call at all, with code 1008 or any other. *)
Theorem C7_rejected_token_gets_no_close
    (E : Collab) (c : chan) (token : string) (script : list Inbound)
    (w : World) :
  jwt_decode_sub E token = None ->
  serve E c token script w = (Ok tt, log (PrintWebSocketError JWTError) w) /\
  conns (snd (serve E c token script w)) = conns w /\
  close_count c (trace (snd (serve E c token script w)))
  = close_count c (trace w).
Proof.
  intros Hd.
  assert (Hrun : serve E c token script w
                 = (Ok tt, log (PrintWebSocketError JWTError) w)).
  { run. by rewrite Hd. }
  rewrite Hrun. split; [done |]. split; [done |].
  simpl. rewrite close_count_app. unfold close_count at 2. simpl. lia.
Qed.

Lemma C7_rejected_token_gets_no_close_witness :
  jwt_decode_sub demo "not-a-jwt" = None /\
  serve demo 7%nat "not-a-jwt" [] world0
  = (Ok tt, log (PrintWebSocketError JWTError) world0).
Proof.
  split; [reflexivity |].
  apply (C7_rejected_token_gets_no_close demo 7%nat "not-a-jwt" [] world0).
  reflexivity.
Defined.

(** ** The receive loop and the exit paths of an active connection *)

Lemma handle_frame_not_blocked
    (E : Collab) (user : User) (data : InFrame) (w : World) :
  fst (handle_frame E user data w) <> Blocked.
Proof.
  run. destruct (f_receiver_id data) as [key|]; simpl; [| done].
  destruct (List.find _ (users w)) as [receiver|]; simpl; [| done].
  destruct (f_message data) as [text|]; simpl; [| done].
  destruct (translator_translate E w text (u_language receiver)); simpl;
    destruct (conns w !! key) as [c|]; simpl; try done;
    match goal with |- context [send_raises ?a ?b ?c ?d] =>
      destruct (send_raises a b c d) end; done.
Qed.

Lemma handle_inbound_not_blocked
    (E : Collab) (user : User) (i : Inbound) (w : World) :
  fst (handle_inbound E user i w) <> Blocked.
Proof.
  destruct i; try done. apply handle_frame_not_blocked.
Qed.

Lemma handle_inbound_ends
    (E : Collab) (user : User) (i : Inbound) (w : World) :
  ends_connection i = true ->
  exists e, fst (handle_inbound E user i w) = Raise e.
Proof.
  destruct i as [data| | | |other]; simpl; intros H; try discriminate H;
    try (by eexists).
  unfold handle_frame, getitem_receiver_id.
  destruct (f_receiver_id data); [discriminate H |]. by eexists.
Qed.

(** [while True:] has no [break]: the loop is left by an exception only. *)
Lemma receive_loop_never_returns
    (E : Collab) (user : User) (script : list Inbound) :
  forall w, fst (receive_loop E user script w) = Blocked \/
            exists e, fst (receive_loop E user script w) = Raise e.
Proof.
  induction script as [|i rest IH]; intros w; simpl; [by left |].
  unfold bind.
  destruct (handle_inbound E user i w) as [[[]|e|] w1] eqn:Hi; simpl.
  - apply IH.
  - right. by eexists.
  - by left.
Qed.

Lemma receive_loop_exits
    (E : Collab) (user : User) (script : list Inbound) :
  existsb ends_connection script = true ->
  forall w, exists e, fst (receive_loop E user script w) = Raise e.
Proof.
  induction script as [|i rest IH]; simpl; intros H w; [discriminate H |].
  unfold bind.
  destruct (handle_inbound E user i w) as [[[]|e|] w1] eqn:Hi; simpl.
  - apply orb_prop in H as [H | H].
    + destruct (handle_inbound_ends E user i w H) as [e He].
      rewrite Hi in He. discriminate He.
    + by apply IH.
  - by eexists.
  - pose proof (handle_inbound_not_blocked E user i w) as Hnb.
    rewrite Hi in Hnb. done.
Qed.

(** The handler of a connection that got through the gate: the loop runs
    from [active_world]; the exception that ends it meets [finally] (the
    session is closed), then [except] (the error is printed, the user id is
    popped from the registry). *)
Lemma serve_active
    (E : Collab) (c : chan) (token name : string) (user : User)
    (script : list Inbound) (w : World) :
  jwt_decode_sub E token = Some (Some name) ->
  name <> "" ->
  auth_get_user E (users w) name = Some user ->
  accept_raises E (log DbOpen w) c = false ->
  serve E c token script w =
  match receive_loop E user script (active_world c user w) with
  | (Raise e, w2) =>
      disconnect (u_id user) (log (PrintWebSocketError e) (log DbClose w2))
  | (Ok _, w2) => (Ok tt, log DbClose w2)
  | (Blocked, w2) => (Blocked, w2)
  end.
Proof.
  intros Hd Hn Hu Ha. apply truthy_name in Hn. unfold truthy in Hn.
  unfold active_world. run. rewrite Hd. simpl. rewrite Hn. simpl.
  rewrite Hu. simpl. rewrite Ha. simpl.
  destruct (receive_loop E user script _) as [[[]|e|] w2]; reflexivity.
Qed.

(** C8, as the program has it: for a connection that got through the gate
    and registered, an inbound event that ends a connection (peer
    disconnect, malformed frame) makes the handler return; and whenever the
    handler is over, some exception left the loop (a transport error of a
    push included) and the handler returns normally with the user id
    popped.  Measured from the world in which the exception left the loop,
    the world it returns in has the same tables, a trace longer by the
    closing of the database session and the print of the error, and the
    registry without the user id: whatever channel the registry held for
    the user at that moment is removed, so no registration of the user,
    this connection's own included, is left behind when the handler
    returns. *)
Theorem C8_every_exit_pops_user_id
    (E : Collab) (c : chan) (token name : string) (user : User)
    (script : list Inbound) (w : World) :
  jwt_decode_sub E token = Some (Some name) ->
  name <> "" ->
  auth_get_user E (users w) name = Some user ->
  accept_raises E (log DbOpen w) c = false ->
  (existsb ends_connection script = true ->
   fst (serve E c token script w) = Ok tt) /\
  (fst (serve E c token script w) <> Blocked ->
   exists e w2,
     receive_loop E user script (active_world c user w) = (Raise e, w2) /\
     fst (serve E c token script w) = Ok tt /\
     trace (snd (serve E c token script w))
       = trace w2 ++ [DbClose; PrintWebSocketError e] /\
     conns (snd (serve E c token script w)) = delete (u_id user) (conns w2) /\
     users (snd (serve E c token script w)) = users w2 /\
     messages (snd (serve E c token script w)) = messages w2 /\
     lookup_conn (u_id user) (snd (serve E c token script w)) = None).
Proof.
  intros Hd Hn Hu Ha.
  rewrite (serve_active E c token name user script w Hd Hn Hu Ha).
  split.
  - intros Hends.
    destruct (receive_loop_exits E user script Hends (active_world c user w))
      as [e He].
    destruct (receive_loop E user script _) as [r w2]. simpl in He.
    by rewrite He.
  - destruct (receive_loop_never_returns E user script (active_world c user w))
      as [Hb | [e He]];
      destruct (receive_loop E user script _) as [r w2]; simpl in *;
      subst r; [done |].
    intros _. exists e, w2. split; [done |]. split; [done |].
    rewrite disconnect_run.
    cbn [snd set_conns log trace conns users messages].
    split; [by rewrite <- app_assoc |]. split; [done |].
    split; [done |]. split; [done |].
    unfold lookup_conn. simpl. apply lookup_delete_eq.
Qed.

Lemma C8_every_exit_pops_user_id_witness :
  existsb ends_connection [RecvObject hello; RecvDisconnect] = true /\
  fst (serve demo 7%nat "tok-alice" [RecvObject hello; RecvDisconnect] world0)
  = Ok tt.
Proof.
  split; [reflexivity |].
  apply (C8_every_exit_pops_user_id demo 7%nat "tok-alice" "alice" alice
           [RecvObject hello; RecvDisconnect] world0);
    [reflexivity | discriminate | reflexivity | reflexivity | reflexivity].
Defined.

(** C8 as the specification states it fails: user 1 is connected on channel
    7, logs in again on channel 8, and then the first peer disconnects.  At
    that moment the registry holds channel 8; the specified
    [unregister(1, 7)] leaves it there, but the exit path of the first
    connection removes it, and the handler's calls on the outside are the
    ones listed. *)
Lemma C8_exit_evicts_newer_session :
  lookup_conn 1 (snd (serve demo 7%nat "tok-alice" [second_login] world0))
  = Some 8%nat /\
  lookup_conn 1
    (unregister_spec 1 7%nat
       (snd (serve demo 7%nat "tok-alice" [second_login] world0)))
  = Some 8%nat /\
  lookup_conn 1
    (snd (serve demo 7%nat "tok-alice" [second_login; RecvDisconnect] world0))
  = None /\
  trace (snd (serve demo 7%nat "tok-alice" [second_login; RecvDisconnect]
                world0))
  = [DbOpen; Accept 7%nat; Accept 8%nat; DbClose;
     PrintWebSocketError WebSocketDisconnect].
Proof. vm_compute. repeat split. Qed.

(** ** The history query *)

Lemma filter_sublist {A} (f : A -> bool) (l : list A) :
  sublist (List.filter f l) l.
Proof.
  induction l as [|a l IH]; simpl; [constructor |].
  destruct (f a); by constructor.
Qed.

Lemma ordered_strongly (rows : list Message) :
  ordered_by_timestamp rows = true -> StronglySorted by_timestamp rows.
Proof.
  induction rows as [|a rows IH]; [constructor |].
  destruct rows as [|b rest]; [repeat constructor |].
  intros H. apply andb_prop in H as [Hab Hrest]. apply Z.leb_le in Hab.
  specialize (IH Hrest). constructor; [done |].
  constructor; [done |].
  apply StronglySorted_inv in IH as [_ Hb].
  eapply List.Forall_impl; [| exact Hb].
  intros x Hx. unfold by_timestamp in *. lia.
Qed.

Lemma strongly_ordered (rows : list Message) :
  StronglySorted by_timestamp rows -> ordered_by_timestamp rows = true.
Proof.
  induction 1 as [|a rows Hs IH Hall]; [done |].
  destruct rows as [|b rest]; [done |].
  change (((timestamp a <=? timestamp b) && ordered_by_timestamp (b :: rest))
          = true).
  apply List.Forall_inv in Hall. rewrite IH.
  apply andb_true_intro. split; [by apply Z.leb_le | done].
Qed.

Lemma strongly_filter (f : Message -> bool) (rows : list Message) :
  StronglySorted by_timestamp rows ->
  StronglySorted by_timestamp (List.filter f rows).
Proof.
  induction 1 as [|a rows Hs IH Hall]; simpl; [constructor |].
  destruct (f a); [| done]. constructor; [done |].
  apply List.Forall_forall. intros x Hx. apply List.filter_In in Hx as [Hx _].
  by apply (proj1 (List.Forall_forall _ _) Hall).
Qed.

(** C9, as the program has it: for the authenticated [current_user] and a
    target [user_id] the query returns exactly the rows of the message table
    in which the two are sender and receiver, in either direction; the rows
    come in the order they have in the table, each kept once, since the
    query asks for no ordering; so the result is ordered by timestamp
    whenever the table is. *)
Theorem C9_history_is_the_filtered_table
    (current_user : User) (user_id : Z) (w : World) :
  (forall m,
     In m (get_messages user_id current_user w) <->
     In m (messages w) /\
     ((sender_id m = u_id current_user /\ receiver_id m = user_id) \/
      (sender_id m = user_id /\ receiver_id m = u_id current_user))) /\
  sublist (get_messages user_id current_user w) (messages w) /\
  (ordered_by_timestamp (messages w) = true ->
   ordered_by_timestamp (get_messages user_id current_user w) = true).
Proof.
  unfold get_messages. split; [| split].
  - intros m. rewrite List.filter_In. unfold in_conversation.
    rewrite orb_true_iff, !andb_true_iff, !Z.eqb_eq. done.
  - apply filter_sublist.
  - intros H. by apply strongly_ordered, strongly_filter, ordered_strongly.
Qed.

Lemma C9_history_is_the_filtered_table_witness :
  ordered_by_timestamp (messages world_busy) = true /\
  get_messages 2 alice world_busy
  = [ mkMessage 1 1 2 "hi" "es:hi" 10;
      mkMessage 3 2 1 "hola" "en:hola" 30;
      mkMessage 5 1 2 "bye" "es:bye" 50 ] /\
  In (mkMessage 3 2 1 "hola" "en:hola" 30) (get_messages 2 alice world_busy) /\
  ~ In (mkMessage 4 3 1 "salut" "en:salut" 40)
       (get_messages 2 alice world_busy) /\
  sublist (get_messages 2 alice world_busy) (messages world_busy) /\
  ordered_by_timestamp (get_messages 2 alice world_busy) = true.
Proof.
  destruct (C9_history_is_the_filtered_table alice 2 world_busy)
    as (Hrows & Hsub & Hord).
  split; [reflexivity |]. split; [reflexivity |].
  split; [| split; [| split; [exact Hsub |]]].
  - apply Hrows. split; [| right; split; reflexivity].
    simpl. right. right. left. reflexivity.
  - intros Hin. apply Hrows in Hin as [_ [[Hs _] | [Hs _]]];
      simpl in Hs; discriminate Hs.
  - apply Hord. reflexivity.
Defined.

(** C9 as the specification states it fails: alice sends bob three frames
    while the database clock is stepped in between; the table then holds the
    rows with timestamps 5, 9 and 7 in this order, and the history query
    returns them in this order, which is neither the ascending nor the
    descending order of their timestamps. *)
Lemma C9_history_not_ordered_by_timestamp :
  map timestamp
    (get_messages 2 alice
       (snd (serve demo_clock_stepped 7%nat "tok-alice"
               [RecvObject hello; RecvObject hello; RecvObject hello] world0)))
  = [5; 9; 7] /\
  ordered_by_timestamp
    (get_messages 2 alice
       (snd (serve demo_clock_stepped 7%nat "tok-alice"
               [RecvObject hello; RecvObject hello; RecvObject hello] world0)))
  = false /\
  ordered_by_timestamp
    (rev (get_messages 2 alice
            (snd (serve demo_clock_stepped 7%nat "tok-alice"
                    [RecvObject hello; RecvObject hello; RecvObject hello]
                    world0))))
  = false.
Proof. vm_compute. repeat split. Qed.

(** ** Beyond the claims: the gate of [websocket_endpoint] *)

(** X1: a connection whose token decodes to a non-empty subject that
    [auth.get_user] resolves, and whose [accept] succeeds, is registered
    under the resolved user's id and then waits for frames: the handler
    has opened a session and accepted the websocket, nothing else; the
    tables are untouched and every other user's registration is kept. *)
Theorem X1_valid_token_registers_and_waits
    (E : Collab) (c : chan) (token name : string) (user : User) (w : World) :
  jwt_decode_sub E token = Some (Some name) ->
  name <> "" ->
  auth_get_user E (users w) name = Some user ->
  accept_raises E (log DbOpen w) c = false ->
  fst (serve E c token [] w) = Blocked /\
  lookup_conn (u_id user) (snd (serve E c token [] w)) = Some c /\
  (forall v, v <> u_id user ->
     lookup_conn v (snd (serve E c token [] w)) = lookup_conn v w) /\
  trace (snd (serve E c token [] w)) = trace w ++ [DbOpen; Accept c] /\
  users (snd (serve E c token [] w)) = users w /\
  messages (snd (serve E c token [] w)) = messages w.
Proof.
  intros Hd Hn Hu Ha.
  rewrite (serve_active E c token name user [] w Hd Hn Hu Ha).
  unfold lookup_conn, active_world. simpl.
  split; [done |]. split; [apply lookup_insert_eq |].
  split; [intros v Hv; by rewrite lookup_insert_ne |].
  split; [by rewrite <- app_assoc | done].
Qed.

Lemma X1_valid_token_registers_and_waits_witness :
  jwt_decode_sub demo "tok-alice" = Some (Some "alice") /\
  lookup_conn 1 (snd (serve demo 7%nat "tok-alice" [] world0)) = Some 7%nat.
Proof.
  split; [reflexivity |].
  apply (X1_valid_token_registers_and_waits demo 7%nat "tok-alice" "alice"
           alice world0);
    [reflexivity | discriminate | reflexivity | reflexivity].
Defined.

(** X2: when the token and the user are fine but [websocket.accept()]
    raises, the new websocket is never registered, yet the [except] clause
    still pops the user id: the handler returns normally, the session is
    closed, and a channel that an earlier connection of the same user had
    registered is gone from the registry. *)
Theorem X2_failed_accept_pops_existing_session
    (E : Collab) (c : chan) (token name : string) (user : User)
    (script : list Inbound) (w : World) :
  jwt_decode_sub E token = Some (Some name) ->
  name <> "" ->
  auth_get_user E (users w) name = Some user ->
  accept_raises E (log DbOpen w) c = true ->
  fst (serve E c token script w) = Ok tt /\
  conns (snd (serve E c token script w)) = delete (u_id user) (conns w) /\
  lookup_conn (u_id user) (snd (serve E c token script w)) = None /\
  trace (snd (serve E c token script w))
  = trace w ++ [DbOpen; Accept c; DbClose; PrintWebSocketError TransportError].
Proof.
  intros Hd Hn Hu Ha. apply truthy_name in Hn. unfold truthy in Hn.
  run. rewrite Hd. simpl. rewrite Hn. simpl. rewrite Hu. simpl.
  rewrite Ha. simpl.
  split; [done |]. split; [done |]. split; [apply lookup_delete_eq |].
  by rewrite <- !app_assoc.
Qed.

Lemma X2_failed_accept_pops_existing_session_witness :
  lookup_conn 1 (set_conns {[1 := 5%nat]} world0) = Some 5%nat /\
  lookup_conn 1
    (snd (serve demo_accept_fails 7%nat "tok-alice" []
            (set_conns {[1 := 5%nat]} world0)))
  = None.
Proof.
  split; [reflexivity |].
  apply (X2_failed_accept_pops_existing_session demo_accept_fails 7%nat
           "tok-alice" "alice" alice [] (set_conns {[1 := 5%nat]} world0));
    [reflexivity | discriminate | reflexivity | reflexivity].
Defined.

(** X3: when the subject names no user and the [close(code=1008)] that
    answers it raises, the [except] clause finds [user] bound to [None] and
    its [user.id] raises in turn: the handler itself ends with
    [AttributeError].  The session has been closed before, and the registry
    is as it was. *)
Theorem X3_unknown_user_failed_close_escapes
    (E : Collab) (c : chan) (token name : string)
    (script : list Inbound) (w : World) :
  jwt_decode_sub E token = Some (Some name) ->
  name <> "" ->
  auth_get_user E (users w) name = None ->
  close_raises E (log DbOpen w) c 1008 = true ->
  fst (serve E c token script w) = Raise AttributeError /\
  conns (snd (serve E c token script w)) = conns w /\
  trace (snd (serve E c token script w))
  = trace w ++ [DbOpen; Close c 1008; DbClose;
                PrintWebSocketError TransportError].
Proof.
  intros Hd Hn Hu Hc. apply truthy_name in Hn. unfold truthy in Hn.
  run. rewrite Hd. simpl. rewrite Hn. simpl. rewrite Hu. simpl.
  rewrite Hc. simpl.
  split; [done |]. split; [done |]. by rewrite <- !app_assoc.
Qed.

Lemma X3_unknown_user_failed_close_escapes_witness :
  auth_get_user demo_close_fails (users world0) "ghost" = None /\
  fst (serve demo_close_fails 7%nat "tok-ghost" [] world0)
  = Raise AttributeError.
Proof.
  split; [reflexivity |].
  apply (X3_unknown_user_failed_close_escapes demo_close_fails 7%nat
           "tok-ghost" "ghost" [] world0);
    [reflexivity | discriminate | reflexivity | reflexivity].
Defined.

(** ** Beyond the claims: frames and the receive loop *)

Lemma handle_frame_no_receiver_key
    (E : Collab) (user : User) (data : InFrame) (w : World) :
  f_receiver_id data = None ->
  handle_frame E user data w = (Raise (KeyError "receiver_id"), w).
Proof.
  intros Hk. unfold handle_frame, getitem_receiver_id. by rewrite Hk.
Qed.

Lemma handle_frame_no_message_key
    (E : Collab) (user receiver : User) (data : InFrame) (key : Z)
    (w : World) :
  f_receiver_id data = Some key ->
  List.find (fun u => u_id u =? key) (users w) = Some receiver ->
  f_message data = None ->
  handle_frame E user data w = (Raise (KeyError "message"), w).
Proof.
  intros Hk Hr Hm.
  unfold handle_frame, getitem_receiver_id, getitem_message, query_user_by_id.
  rewrite Hk, Hm. unfold bind, ret, raise. by rewrite Hr.
Qed.

Lemma handle_frame_unknown_receiver
    (E : Collab) (user : User) (data : InFrame) (key : Z) (w : World) :
  f_receiver_id data = Some key ->
  List.find (fun u => u_id u =? key) (users w) = None ->
  handle_frame E user data w = (Ok tt, w).
Proof.
  intros Hk Hr. unfold handle_frame, getitem_receiver_id, query_user_by_id.
  rewrite Hk. unfold bind, ret. by rewrite Hr.
Qed.

(** X4: a frame object that lacks a key the handler subscripts raises
    [KeyError] for that key before anything is done: without ["receiver_id"]
    at once, and without ["message"] as soon as the receiver has been
    found; in both cases nothing is translated, stored or pushed. *)
Theorem X4_missing_key_raises_before_any_effect
    (E : Collab) (user : User) (data : InFrame) (w : World) :
  (f_receiver_id data = None ->
   handle_frame E user data w = (Raise (KeyError "receiver_id"), w)) /\
  (forall key receiver,
     f_receiver_id data = Some key ->
     List.find (fun u => u_id u =? key) (users w) = Some receiver ->
     f_message data = None ->
     handle_frame E user data w = (Raise (KeyError "message"), w)).
Proof.
  split.
  - apply handle_frame_no_receiver_key.
  - intros key receiver. apply handle_frame_no_message_key.
Qed.

Lemma X4_missing_key_raises_before_any_effect_witness :
  f_message (mkInFrame (Some 2) None) = None /\
  handle_frame demo alice (mkInFrame (Some 2) None) world0
  = (Raise (KeyError "message"), world0).
Proof.
  split; [reflexivity |].
  apply (proj2 (X4_missing_key_raises_before_any_effect demo alice
                  (mkInFrame (Some 2) None) world0) 2 bob);
    reflexivity.
Defined.

Lemma send_conns (E : Collab) (f : OutFrame) (u : Z) (w : World) :
  conns (snd (send_personal_message E f u w)) = conns w.
Proof.
  unfold send_personal_message, ws_send_json.
  destruct (conns w !! u) as [c|]; [| done].
  by destruct (send_raises E w c f).
Qed.

Lemma send_users (E : Collab) (f : OutFrame) (u : Z) (w : World) :
  users (snd (send_personal_message E f u w)) = users w.
Proof.
  unfold send_personal_message, ws_send_json.
  destruct (conns w !! u) as [c|]; [| done].
  by destruct (send_raises E w c f).
Qed.

(** What one frame can do to the world. *)
Lemma handle_frame_footprint
    (E : Collab) (user : User) (data : InFrame) (w : World) :
  conns (snd (handle_frame E user data w)) = conns w /\
  users (snd (handle_frame E user data w)) = users w /\
  exists rows new,
    messages (snd (handle_frame E user data w)) = messages w ++ rows /\
    (length rows <= 1)%nat /\
    Forall (fun m => sender_id m = u_id user) rows /\
    trace (snd (handle_frame E user data w)) = trace w ++ new /\
    Forall (loop_effect user (conns w)) new.
Proof.
  destruct (f_receiver_id data) as [key|] eqn:Hk.
  2: { rewrite (handle_frame_no_receiver_key E user data w Hk).
       repeat split. exists [], []. simpl. rewrite !app_nil_r.
       repeat split; auto. }
  destruct (List.find (fun u => u_id u =? key) (users w)) as [receiver|] eqn:Hr.
  2: { rewrite (handle_frame_unknown_receiver E user data key w Hk Hr).
       repeat split. exists [], []. simpl. rewrite !app_nil_r.
       repeat split; auto. }
  destruct (f_message data) as [text|] eqn:Hm.
  2: { rewrite (handle_frame_no_message_key E user receiver data key w
                 Hk Hr Hm).
       repeat split. exists [], []. simpl. rewrite !app_nil_r.
       repeat split; auto. }
  rewrite (handle_frame_valid E user receiver data key text w Hk Hm Hr).
  rewrite send_conns, send_users, send_messages, send_trace.
  split; [done |]. split; [done |].
  exists [row_for E user receiver key text w].
  exists ((match translator_translate E w text (u_language receiver) with
           | Some _ => []
           | None => [PrintTranslationError TranslatorError]
           end) ++
          DbCommit (row_for E user receiver key text w) ::
          match conns w !! key with
          | Some c => [SendJson c (frame_of user key
                                     (row_for E user receiver key text w))]
          | None => []
          end).
  split; [done |]. split; [simpl; lia |].
  split; [by repeat constructor |]. split.
  - rewrite after_commit_conns. unfold after_commit, after_translate. simpl.
    destruct (translator_translate E w text (u_language receiver)); simpl;
      rewrite <- ?app_assoc; reflexivity.
  - apply Forall_app. split.
    + destruct (translator_translate E w text (u_language receiver));
        by repeat constructor.
    + constructor; [done |].
      destruct (conns w !! key) as [c|] eqn:Hc; by repeat constructor.
Qed.

Lemma handle_inbound_footprint
    (E : Collab) (user : User) (i : Inbound) (w : World) :
  is_meanwhile i = false ->
  conns (snd (handle_inbound E user i w)) = conns w /\
  users (snd (handle_inbound E user i w)) = users w /\
  exists rows new,
    messages (snd (handle_inbound E user i w)) = messages w ++ rows /\
    (length rows <= 1)%nat /\
    Forall (fun m => sender_id m = u_id user) rows /\
    trace (snd (handle_inbound E user i w)) = trace w ++ new /\
    Forall (loop_effect user (conns w)) new.
Proof.
  destruct i as [data| | | |other]; simpl; intros Hi; try discriminate Hi;
    try apply handle_frame_footprint;
    (split; [done |]; split; [done |]; exists [], []; rewrite !app_nil_r;
     repeat split; auto).
Qed.

(** What a whole run of the loop can do to the world, as long as no other
    task interferes. *)
Lemma receive_loop_footprint
    (E : Collab) (user : User) (script : list Inbound) :
  undisturbed script = true ->
  forall w,
    conns (snd (receive_loop E user script w)) = conns w /\
    users (snd (receive_loop E user script w)) = users w /\
    exists rows new,
      messages (snd (receive_loop E user script w)) = messages w ++ rows /\
      (length rows <= length script)%nat /\
      Forall (fun m => sender_id m = u_id user) rows /\
      trace (snd (receive_loop E user script w)) = trace w ++ new /\
      Forall (loop_effect user (conns w)) new.
Proof.
  induction script as [|i rest IH]; intros Hu w.
  { simpl. split; [done |]. split; [done |]. exists [], [].
    rewrite !app_nil_r. repeat split; auto. }
  simpl in Hu. apply andb_prop in Hu as [Hi Hrest].
  apply negb_true_iff in Hi.
  destruct (handle_inbound_footprint E user i w Hi)
    as (Hc1 & Hu1 & rows1 & new1 & Hm1 & Hl1 & Hs1 & Ht1 & He1).
  simpl. unfold bind.
  destruct (handle_inbound E user i w) as [[[]|e|] w1]; simpl in *.
  - destruct (IH Hrest w1)
      as (Hc2 & Hu2 & rows2 & new2 & Hm2 & Hl2 & Hs2 & Ht2 & He2).
    split; [congruence |]. split; [congruence |].
    exists (rows1 ++ rows2), (new1 ++ new2).
    rewrite Hm2, Hm1, Ht2, Ht1, <- !app_assoc, length_app.
    split; [done |]. split; [lia |].
    split; [by apply Forall_app |]. split; [done |].
    apply Forall_app. split; [done |]. by rewrite <- Hc1.
  - split; [done |]. split; [done |]. exists rows1, new1.
    repeat split; auto. lia.
  - split; [done |]. split; [done |]. exists rows1, new1.
    repeat split; auto. lia.
Qed.

(** X5: whatever the frames of a connection say, while no other task
    interferes the loop never rewrites or deletes a stored row and never
    touches the user table or the registry: the message table only grows at
    its end, by at most one row per inbound event, and every row added has
    the authenticated user of the connection as its sender. *)
Theorem X5_loop_appends_rows_of_its_user_only
    (E : Collab) (user : User) (script : list Inbound) (w : World) :
  undisturbed script = true ->
  conns (snd (receive_loop E user script w)) = conns w /\
  users (snd (receive_loop E user script w)) = users w /\
  exists rows,
    messages (snd (receive_loop E user script w)) = messages w ++ rows /\
    (length rows <= length script)%nat /\
    Forall (fun m => sender_id m = u_id user) rows.
Proof.
  intros Hu.
  destruct (receive_loop_footprint E user script Hu w)
    as (Hc & Hus & rows & new & Hm & Hl & Hs & _ & _).
  split; [done |]. split; [done |]. by exists rows.
Qed.

Lemma X5_loop_appends_rows_of_its_user_only_witness :
  undisturbed [RecvObject hello; RecvObject hello; RecvDisconnect] = true /\
  users (snd (receive_loop demo alice
                [RecvObject hello; RecvObject hello; RecvDisconnect] world0))
  = users world0.
Proof.
  split; [reflexivity |].
  apply (X5_loop_appends_rows_of_its_user_only demo alice
           [RecvObject hello; RecvObject hello; RecvDisconnect] world0).
  reflexivity.
Defined.



(** X7: frames of one connection are handled in the order received, and
    nothing is handled after the connection ended: a script in two parts
    runs as the first part and, if that leaves the loop waiting, the second
    part from the world the first one left; if the first part ended in an
    exception, the second part has no effect at all. *)
Theorem X7_loop_runs_in_order_and_stops_at_first_exception
    (E : Collab) (user : User) (first second : list Inbound) (w : World) :
  receive_loop E user (first ++ second) w =
  match receive_loop E user first w with
  | (Blocked, w1) => receive_loop E user second w1
  | ended => ended
  end.
Proof.
  revert w. induction first as [|i rest IH]; intros w; [reflexivity |].
  simpl. unfold bind.
  pose proof (handle_inbound_not_blocked E user i w) as Hnb.
  destruct (handle_inbound E user i w) as [[[]|e|] w1]; simpl in *.
  - apply IH.
  - reflexivity.
  - done.
Qed.



Lemma count_effects_app (p : effect -> bool) (t1 t2 : list effect) :
  count_effects p (t1 ++ t2)
  = (count_effects p t1 + count_effects p t2)%nat.
Proof. unfold count_effects. by rewrite List.filter_app, length_app. Qed.

Lemma loop_effects_leave_session
    (user : User) (registry : gmap Z chan) (new : list effect) :
  Forall (loop_effect user registry) new ->
  count_effects is_db_open new = 0%nat /\
  count_effects is_db_close new = 0%nat.
Proof.
  induction 1 as [|e new He _ [IHo IHc]]; [done |].
  unfold count_effects in *. destruct e; simpl in *; done.
Qed.

(** X9: the handler opens at most one database session, and, while no other
    task interferes, has closed it exactly when it is over: on every way
    out (rejected token, missing subject, unknown user, failed accept, any
    exception in the loop) the sessions opened and closed by it are equally
    many, and while it waits for frames its one session is open. *)
Theorem X9_session_closed_exactly_when_handler_ends
    (E : Collab) (c : chan) (token : string) (script : list Inbound)
    (w : World) :
  undisturbed script = true ->
  exists new,
    trace (snd (serve E c token script w)) = trace w ++ new /\
    (count_effects is_db_open new <= 1)%nat /\
    (fst (serve E c token script w) = Blocked ->
     count_effects is_db_open new = 1%nat /\
     count_effects is_db_close new = 0%nat) /\
    (fst (serve E c token script w) <> Blocked ->
     count_effects is_db_close new = count_effects is_db_open new).
Proof.
  intros Hund.
  destruct (jwt_decode_sub E token) as [[name|]|] eqn:Hd.
  - destruct (String.eqb_spec name "") as [-> | Hn].
    + run. rewrite Hd. simpl.
      destruct (close_raises E w c 1008); session_case.
    + destruct (auth_get_user E (users w) name) as [user|] eqn:Hu.
      * destruct (accept_raises E (log DbOpen w) c) eqn:Ha.
        { pose proof (truthy_name name Hn) as Ht. unfold truthy in Ht.
          run. rewrite Hd. simpl. rewrite Ht. simpl. rewrite Hu. simpl.
          rewrite Ha. session_case. }
        rewrite (serve_active E c token name user script w Hd Hn Hu Ha).
        destruct (receive_loop_footprint E user script Hund
                    (active_world c user w))
          as (_ & _ & rows & new & _ & _ & _ & Ht & He).
        apply loop_effects_leave_session in He as [Ho Hc].
        destruct (receive_loop E user script (active_world c user w))
          as [[[]|e|] w2]; simpl in Ht.
        { exists ([DbOpen; Accept c] ++ new ++ [DbClose]). simpl. rewrite Ht.
          split; [by rewrite <- !app_assoc |].
          change (DbOpen :: Accept c :: new ++ [DbClose])
            with ([DbOpen; Accept c] ++ new ++ [DbClose]).
          rewrite !count_effects_app, Ho, Hc. cbn.
          repeat split; intros; try done; lia. }
        { exists ([DbOpen; Accept c] ++ new
                  ++ [DbClose; PrintWebSocketError e]).
          rewrite disconnect_run. simpl. rewrite Ht.
          split; [by rewrite <- !app_assoc |].
          change (DbOpen :: Accept c
                  :: new ++ [DbClose; PrintWebSocketError e])
            with ([DbOpen; Accept c] ++ new
                  ++ [DbClose; PrintWebSocketError e]).
          rewrite !count_effects_app, Ho, Hc. cbn.
          repeat split; intros; try done; lia. }
        { exists ([DbOpen; Accept c] ++ new). simpl. rewrite Ht.
          split; [by rewrite <- !app_assoc |].
          change (DbOpen :: Accept c :: new) with ([DbOpen; Accept c] ++ new).
          rewrite !count_effects_app, Ho, Hc. cbn.
          repeat split; intros; try done; lia. }
      * pose proof (truthy_name name Hn) as Ht. unfold truthy in Ht.
        run. rewrite Hd. simpl. rewrite Ht. simpl. rewrite Hu. simpl.
        destruct (close_raises E _ c 1008); session_case.
  - run. rewrite Hd. simpl.
    destruct (close_raises E w c 1008); session_case.
  - run. rewrite Hd. session_case.
Qed.

Lemma X9_session_closed_exactly_when_handler_ends_witness :
  undisturbed [RecvObject hello; RecvDisconnect] = true /\
  exists new,
    trace (snd (serve demo 7%nat "tok-alice" [RecvObject hello; RecvDisconnect]
                  world0)) = trace world0 ++ new /\
    (count_effects is_db_open new <= 1)%nat.
Proof.
  split; [reflexivity |].
  destruct (X9_session_closed_exactly_when_handler_ends demo 7%nat
              "tok-alice" [RecvObject hello; RecvDisconnect] world0 eq_refl)
    as (new & Ht & Hle & _).
  exists new. split; [exact Ht | exact Hle].
Defined.

(** ** Beyond the claims: the registry as a routing table *)

(** X10: registering and pushing compose.  Once [connect(c, u)] has
    returned, [send_personal_message(f, u)] pushes [f] on [c], and the
    channels of all other users are the ones from before; once
    [disconnect(u)] has run, [send_personal_message(f, u)] returns without
    doing anything; and a [connect] whose [accept] raises changes no
    registration, so a channel registered earlier stays in place. *)
Theorem X10_registry_routes_pushes
    (E : Collab) (c : chan) (u : Z) (f : OutFrame) (w : World) :
  (forall w1,
     connect E c u w = (Ok tt, w1) ->
     send_personal_message E f u w1 =
       (if send_raises E w1 c f then Raise TransportError else Ok tt,
        log (SendJson c f) w1) /\
     (forall v, v <> u -> lookup_conn v w1 = lookup_conn v w)) /\
  send_personal_message E f u (snd (disconnect u w))
  = (Ok tt, snd (disconnect u w)) /\
  (accept_raises E w c = true ->
   fst (connect E c u w) = Raise TransportError /\
   conns (snd (connect E c u w)) = conns w).
Proof.
  split; [| split].
  - intros w1 H. apply connect_ok in H as [_ ->].
    unfold send_personal_message, ws_send_json, lookup_conn. simpl.
    rewrite lookup_insert_eq. split.
    + by destruct (send_raises E _ c f).
    + intros v Hv. by rewrite lookup_insert_ne.
  - rewrite disconnect_run. unfold send_personal_message. simpl.
    by rewrite lookup_delete_eq.
  - intros Ha. rewrite connect_run, Ha. by split.
Qed.

Lemma X10_registry_routes_pushes_witness :
  accept_raises demo_accept_fails (set_conns {[1 := 5%nat]} world0) 7%nat
  = true /\
  conns (snd (connect demo_accept_fails 7%nat 1
                (set_conns {[1 := 5%nat]} world0)))
  = conns (set_conns {[1 := 5%nat]} world0).
Proof.
  split; [reflexivity |].
  apply (proj2 (proj2 (X10_registry_routes_pushes demo_accept_fails 7%nat 1
                         sample_frame (set_conns {[1 := 5%nat]} world0)))).
  reflexivity.
Defined.

(** ** Beyond the claims: the history query *)

(** X11: the two parties of a conversation get the same history: what
    [a] is returned when asking about [b] is what [b] is returned when
    asking about [a], rows and order alike. *)
Theorem X11_both_parties_get_the_same_history (a b : User) (w : World) :
  get_messages (u_id b) a w = get_messages (u_id a) b w.
Proof.
  unfold get_messages. apply List.filter_ext. intros m.
  apply in_conversation_sym.
Qed.

(** X12: a handled frame shows up in its own conversation and in no other:
    for a well-formed frame with a resolvable receiver, the history the
    sender gets for the receiver is the old one followed by the new row,
    and the history of every pair of users other than sender and receiver
    is unchanged. *)
Theorem X12_frame_extends_only_its_own_conversation
    (E : Collab) (user receiver : User) (data : InFrame) (key : Z)
    (text : string) (w : World) :
  f_receiver_id data = Some key ->
  f_message data = Some text ->
  List.find (fun u => u_id u =? key) (users w) = Some receiver ->
  get_messages key user (snd (handle_frame E user data w))
  = get_messages key user w ++ [row_for E user receiver key text w] /\
  (forall (p : User) (t : Z),
     ~ (u_id p = u_id user /\ t = key) ->
     ~ (u_id p = key /\ t = u_id user) ->
     get_messages t p (snd (handle_frame E user data w))
     = get_messages t p w).
Proof.
  intros Hk Hm Hr.
  rewrite (handle_frame_valid E user receiver data key text w Hk Hm Hr).
  unfold get_messages. rewrite send_messages.
  change (messages (after_commit E user receiver key text w))
    with (messages w ++ [row_for E user receiver key text w]).
  split.
  - rewrite List.filter_app. simpl.
    by rewrite (in_conversation_row (u_id user) key).
  - intros p t H1 H2. rewrite List.filter_app. simpl.
    assert (Hno : in_conversation (u_id p) t
                    (row_for E user receiver key text w) = false).
    { unfold in_conversation. simpl. apply orb_false_intro;
        apply andb_false_iff;
        destruct (Z.eqb_spec (u_id user) (u_id p)),
                 (Z.eqb_spec key t),
                 (Z.eqb_spec (u_id user) t),
                 (Z.eqb_spec key (u_id p)); auto;
        exfalso; auto. }
    rewrite Hno. apply app_nil_r.
Qed.

Lemma X12_frame_extends_only_its_own_conversation_witness :
  List.find (fun u => u_id u =? 2) (users world0) = Some bob /\
  get_messages 2 alice (snd (handle_frame demo alice hello world0))
  = get_messages 2 alice world0 ++ [row_for demo alice bob 2 "hello" world0].
Proof.
  split; [reflexivity |].
  apply (X12_frame_extends_only_its_own_conversation demo alice bob hello 2
           "hello" world0); reflexivity.
Defined.

(** ** Beyond the claims: the user endpoints *)

(** X13: the pages of [GET /users] tile the user table: a page of [k] users
    from [skip] followed by a page of [l] users from [skip + k] is the page
    of [k + l] users from [skip]; a page holds at most [limit] users; a
    page that starts at or after the end of the table is empty; and a page
    from 0 whose limit is at least the table's length returns every user,
    in table order. *)
Theorem X13_user_pages_tile_the_table
    (table : list User) (current_user : User) (skip k l : nat) :
  get_users table current_user skip k
    ++ get_users table current_user (skip + k) l
  = get_users table current_user skip (k + l) /\
  (length (get_users table current_user skip k) <= k)%nat /\
  ((length table <= skip)%nat -> get_users table current_user skip k = []) /\
  ((length table <= k)%nat ->
   get_users table current_user 0 k = map to_schema_user table).
Proof.
  unfold get_users. split; [| split; [| split]].
  - rewrite <- map_app. f_equal.
    rewrite <- (take_take_drop (drop skip table) k l).
    by rewrite drop_drop.
  - rewrite length_map, length_take. lia.
  - intros H. rewrite drop_ge by done. by rewrite take_nil.
  - intros H. simpl. rewrite take_ge by done. reflexivity.
Qed.

Lemma X13_user_pages_tile_the_table_witness :
  (length [alice; bob] <= 100)%nat /\
  get_users [alice; bob] alice 0 100 = map to_schema_user [alice; bob].
Proof.
  split; [simpl; lia |].
  apply (proj2 (proj2 (proj2 (X13_user_pages_tile_the_table [alice; bob]
                                alice 0 100 0)))).
  simpl. lia.
Defined.

Lemma next_user_id_above (table : list User) (u : User) :
  In u table -> u_id u < next_user_id table.
Proof.
  unfold next_user_id. induction table as [|a table IH]; simpl; [done |].
  intros [-> | Hin]; [lia |]. specialize (IH Hin). lia.
Qed.

Lemma username_taken_false (name : string) (table : list User) :
  username_taken name table = false -> ~ In name (map u_username table).
Proof.
  unfold username_taken. induction table as [|a table IH]; simpl; [tauto |].
  intros H. apply orb_false_elim in H as [Ha Ht].
  intros [Heq | Hin]; [| by apply IH].
  apply String.eqb_neq in Ha. done.
Qed.

(** X14: a registration that does not succeed leaves the user table as it
    was, and a known username is answered with status 400.  A successful
    one appends exactly one row and changes no other: the row has the
    submitted username and language, the hash of the submitted password,
    and an id above every id in the table; the username was not in the
    table before; and the response shows the row's username, language and
    id. *)
Theorem X14_register_user_outcomes
    (E : Collab) (get_password_hash : string -> string)
    (user : UserCreate) (table : list User) :
  (forall existing,
     auth_get_user E table (c_username user) = Some existing ->
     register_user E get_password_hash user table
     = (HTTPException 400 "Username already registered", table)) /\
  ((forall r, fst (register_user E get_password_hash user table) <> HttpOk r) ->
   snd (register_user E get_password_hash user table) = table) /\
  (forall r,
     fst (register_user E get_password_hash user table) = HttpOk r ->
     snd (register_user E get_password_hash user table)
     = table ++ [mkUser (s_id r) (c_username user)
                        (get_password_hash (c_password user))
                        (c_language user)] /\
     s_username r = c_username user /\
     s_language r = c_language user /\
     ~ In (c_username user) (map u_username table) /\
     (forall u, In u table -> u_id u < s_id r)).
Proof.
  unfold register_user. split; [| split].
  - intros existing H. by rewrite H.
  - intros Hfail. destruct (auth_get_user E table (c_username user)); [done |].
    destruct (username_taken (c_username user) table); [done |].
    exfalso. by eapply Hfail.
  - intros r. destruct (auth_get_user E table (c_username user)); [done |].
    destruct (username_taken (c_username user) table) eqn:Ht; [done |].
    simpl. intros [= <-]. simpl. repeat split; try done.
    + by apply username_taken_false.
    + apply next_user_id_above.
Qed.

Lemma X14_register_user_outcomes_witness :
  auth_get_user demo [alice; bob] "alice" = Some alice /\
  register_user demo demo_hash (mkUserCreate "alice" "de" "pw") [alice; bob]
  = (HTTPException 400 "Username already registered", [alice; bob]).
Proof.
  split; [reflexivity |].
  apply (proj1 (X14_register_user_outcomes demo demo_hash
                  (mkUserCreate "alice" "de" "pw") [alice; bob]) alice).
  reflexivity.
Defined.

(** X15: registration keeps the keys of the user table: if no two rows
    share a username, and no two rows share an id, the same holds after
    [register_user], whatever its outcome and whatever [auth.get_user]
    answered. *)
Theorem X15_register_user_keeps_keys_unique
    (E : Collab) (get_password_hash : string -> string)
    (user : UserCreate) (table : list User) :
  (NoDup (map u_username table) ->
   NoDup (map u_username
            (snd (register_user E get_password_hash user table)))) /\
  (NoDup (map u_id table) ->
   NoDup (map u_id (snd (register_user E get_password_hash user table)))).
Proof.
  unfold register_user.
  destruct (auth_get_user E table (c_username user)); [done |].
  destruct (username_taken (c_username user) table) eqn:Ht; [done |].
  simpl. rewrite !map_app. simpl. split; intros Hnd.
  - apply NoDup_app. split; [done |]. split; [| apply NoDup_singleton].
    intros name Hin Hnew. apply list_elem_of_In in Hin.
    apply list_elem_of_singleton in Hnew. subst name.
    by apply (username_taken_false _ _ Ht).
  - apply NoDup_app. split; [done |]. split; [| apply NoDup_singleton].
    intros i Hin Hnew. apply list_elem_of_In in Hin.
    apply list_elem_of_singleton in Hnew. subst i.
    apply List.in_map_iff in Hin as (u & Hid & Hu).
    apply next_user_id_above in Hu. lia.
Qed.

Lemma X15_register_user_keeps_keys_unique_witness :
  NoDup (map u_username [alice; bob]) /\
  NoDup (map u_username (snd (register_user demo demo_hash carol [alice; bob]))).
Proof.
  assert (H : NoDup (map u_username [alice; bob])).
  { apply (bool_decide_unpack _). vm_compute. exact I. }
  split; [exact H |].
  apply (proj1 (X15_register_user_keeps_keys_unique demo demo_hash carol
                  [alice; bob])).
  exact H.
Defined.

(** X16: the token that [POST /token] issues opens the websocket of the
    user who logged in.  Provided that, for the user that
    [auth.authenticate_user] returned, the username is not empty, decoding
    the token created for it gives that username back as subject, and
    [auth.get_user] finds the user by it: a login that succeeds returns a
    bearer token, and a websocket connection carrying that token, once
    accepted, is registered under the id of that very user and waits for
    frames. *)
Theorem X16_issued_token_connects_its_user
    (E : Collab)
    (authenticate_user : list User -> string -> string -> option User)
    (create_access_token : string -> Z -> string) (minutes : Z)
    (form_username form_password : string) (tok : Token)
    (c : chan) (w : World) :
  (forall u,
     authenticate_user (users w) form_username form_password = Some u ->
     u_username u <> "" /\
     jwt_decode_sub E (create_access_token (u_username u) minutes)
     = Some (Some (u_username u)) /\
     auth_get_user E (users w) (u_username u) = Some u) ->
  login_for_access_token authenticate_user create_access_token minutes
    form_username form_password (users w) = HttpOk tok ->
  accept_raises E (log DbOpen w) c = false ->
  token_type tok = "bearer" /\
  exists user,
    authenticate_user (users w) form_username form_password = Some user /\
    fst (serve E c (access_token tok) [] w) = Blocked /\
    lookup_conn (u_id user) (snd (serve E c (access_token tok) [] w))
    = Some c.
Proof.
  intros Hfound Hlogin Ha. unfold login_for_access_token in Hlogin.
  destruct (authenticate_user (users w) form_username form_password)
    as [user|] eqn:Hauth; [| discriminate Hlogin].
  injection Hlogin as <-. simpl. split; [done |].
  exists user. split; [done |].
  destruct (Hfound user eq_refl) as (Hne & Hround & Hget).
  rewrite (serve_active E c _ (u_username user) user [] w Hround Hne Hget Ha).
  unfold lookup_conn, active_world. simpl.
  split; [done | apply lookup_insert_eq].
Qed.

Lemma X16_issued_token_connects_its_user_witness :
  login_for_access_token demo_authenticate demo_create_token 30
    "alice" "pw" [mkUser 1 "alice" "hashed:pw" "en"; bob]
  = HttpOk (mkToken "tok-alice" "bearer") /\
  token_type (mkToken "tok-alice" "bearer") = "bearer".
Proof.
  split; [reflexivity |].
  apply (X16_issued_token_connects_its_user demo demo_authenticate
           demo_create_token 30 "alice" "pw" (mkToken "tok-alice" "bearer")
           7%nat (mkWorld ∅ [mkUser 1 "alice" "hashed:pw" "en"; bob] [] [])).
  - intros u Hu. vm_compute in Hu. injection Hu as <-.
    split; [discriminate |]. split; reflexivity.
  - reflexivity.
  - reflexivity.
Defined.
